(** * effect-react-query: the execution bridge and its hook adapters

    A shallow embedding of [createEffectQuery]: the runner [useRunner] that
    turns an effect computation into a promise, and the option objects that
    [useEffectQuery], [useEffectInfiniteQuery] and [useEffectMutation] hand
    to the fetching library.  Side effects (toasts, the error log, span
    boundaries) are recorded in a chronological trace that is threaded
    through every computation. *)

From stdpp Require Import gmap strings list pretty.

Open Scope string_scope.
Open Scope list_scope.

(** ** JavaScript values *)

(** Values of type [unknown]: what a defect or a property of an error object
    can hold at run time.  An object has its own properties and a prototype
    ([JsNull] ends the chain); a built-in function is known by its name. *)
#[local] Unset Elimination Schemes.
Inductive JsValue : Type :=
  | JsUndefined
  | JsNull
  | JsBool (b : bool)
  | JsNumber (n : Z)
  | JsString (s : string)
  | JsFunction (name : string)
  | JsArray (items : list JsValue)
  | JsObject (props : gmap string JsValue) (proto : JsValue).
#[local] Set Elimination Schemes.

(** [v[key]] on a value that is neither [null] nor [undefined]: the own
    property, else the one found along the prototype chain.  The named
    properties of arrays and functions are not represented. *)
Fixpoint getProperty (key : string) (v : JsValue) : JsValue :=
  match v with
  | JsObject props proto =>
      match props !! key with
      | Some value => value
      | None => getProperty key proto
      end
  | _ => JsUndefined
  end.

(** [key in v]: an own property or one of the prototype chain. *)
Fixpoint inOperator (key : string) (v : JsValue) : bool :=
  match v with
  | JsObject props proto =>
      bool_decide (is_Some (props !! key)) || inOperator key proto
  | _ => false
  end.

(** [Object.prototype] and [Error.prototype], with their standard members. *)
Definition ObjectPrototype : JsValue :=
  JsObject
    (list_to_map
       [ ("constructor", JsFunction "Object");
         ("toString", JsFunction "Object.prototype.toString");
         ("toLocaleString", JsFunction "Object.prototype.toLocaleString");
         ("valueOf", JsFunction "Object.prototype.valueOf");
         ("hasOwnProperty", JsFunction "Object.prototype.hasOwnProperty");
         ("isPrototypeOf", JsFunction "Object.prototype.isPrototypeOf");
         ("propertyIsEnumerable",
          JsFunction "Object.prototype.propertyIsEnumerable");
         ("__defineGetter__", JsFunction "Object.prototype.__defineGetter__");
         ("__defineSetter__", JsFunction "Object.prototype.__defineSetter__");
         ("__lookupGetter__", JsFunction "Object.prototype.__lookupGetter__");
         ("__lookupSetter__", JsFunction "Object.prototype.__lookupSetter__")
       ])
    JsNull.

Definition ErrorPrototype : JsValue :=
  JsObject
    (list_to_map
       [ ("constructor", JsFunction "Error");
         ("name", JsString "Error");
         ("message", JsString "");
         ("toString", JsFunction "Error.prototype.toString") ])
    ObjectPrototype.

(** How a piece of JavaScript ends: it returns a value or throws one. *)
Inductive Completion (A : Type) : Type :=
  | Normal (value : A)
  | Throw (thrown : JsValue).

Arguments Normal {A} value.
Arguments Throw {A} thrown.

(** ** effect/Predicate *)
Module Predicate.

Definition isString (input : JsValue) : bool :=
  match input with JsString _ => true | _ => false end.

Definition isFunction (input : JsValue) : bool :=
  match input with JsFunction _ => true | _ => false end.

Definition isRecordOrArray (input : JsValue) : bool :=
  match input with JsObject _ _ | JsArray _ => true | _ => false end.

Definition isArray (input : JsValue) : bool :=
  match input with JsArray _ => true | _ => false end.

Definition isRecord (input : JsValue) : bool :=
  isRecordOrArray input && negb (isArray input).

Definition isObject (input : JsValue) : bool :=
  isRecordOrArray input || isFunction input.

Definition hasProperty (property : string) (input : JsValue) : bool :=
  isObject input && inOperator property input.

Definition struct (fields : list (string * (JsValue -> bool)))
    (input : JsValue) : bool :=
  isRecordOrArray input
  && forallb (fun kp => snd kp (getProperty (fst kp) input)) fields.

Definition compose (ab bc : JsValue -> bool) (a : JsValue) : bool :=
  ab a && bc a.

End Predicate.

Definition hasStringMessage : JsValue -> bool :=
  Predicate.compose
    Predicate.isRecord
    (Predicate.compose
       (Predicate.hasProperty "message")
       (Predicate.struct [("message", Predicate.isString)])).

(** ** Typed failures and the execution defect *)

(** [EffectfulError]: an object with a string discriminant [_tag]; [fields]
    holds its other own properties and [prototype] is its prototype:
    [ObjectPrototype] for an object literal, a chain through
    [ErrorPrototype] for an instance of a [Data.TaggedError] class. *)
Record EffectfulError : Type := {
  _tag : string;
  fields : gmap string JsValue;
  prototype : JsValue;
}.

(** The error object seen as an [unknown] value. *)
Definition asUnknown (error : EffectfulError) : JsValue :=
  JsObject (<["_tag" := JsString (_tag error)]> (fields error))
    (prototype error).

(** [class QueryDefect extends Data.TaggedError("QueryDefect")<{cause}>]. *)
Record QueryDefect : Type := { cause : JsValue }.

Definition DEFAULT_ERROR_MESSAGE : string := "Something went wrong".
Definition DEFAULT_DEFECT_MESSAGE : string := "An unexpected error occurred".
(** ** effect/Cause and effect/Exit *)

Inductive FiberId : Type :=
  | FiberNone
  | FiberRuntime (id startTimeMillis : Z)
  | FiberComposite (left right : FiberId).

Inductive Cause (E : Type) : Type :=
  | Empty
  | Fail (error : E)
  | Die (defect : JsValue)
  | Interrupt (fiberId : FiberId)
  | Sequential (left right : Cause E)
  | Parallel (left right : Cause E).

Arguments Empty {E}.
Arguments Fail {E} error.
Arguments Die {E} defect.
Arguments Interrupt {E} fiberId.
Arguments Sequential {E} left right.
Arguments Parallel {E} left right.

Inductive Exit (A E : Type) : Type :=
  | Success (value : A)
  | Failure (cause : Cause E).

Arguments Success {A E} value.
Arguments Failure {A E} cause.

Module Cause.
Section WithError.
Context {E : Type}.

Definition isFailType (self : Cause E) : bool :=
  match self with Fail _ => true | _ => false end.

(** [Cause.failureOption]: the first [Fail] met in a left-to-right
    traversal of the cause. *)
Fixpoint failureOption (self : Cause E) : option E :=
  match self with
  | Fail error => Some error
  | Sequential l r | Parallel l r =>
      match failureOption l with
      | Some error => Some error
      | None => failureOption r
      end
  | _ => None
  end.

Definition failureOrCause (self : Cause E) : E + Cause E :=
  match failureOption self with
  | Some error => inl error
  | None => inr self
  end.

(** [Cause.defects]: every defect of the cause, left to right. *)
Fixpoint defects (self : Cause E) : list JsValue :=
  match self with
  | Die defect => [defect]
  | Sequential l r | Parallel l r => defects l ++ defects r
  | _ => []
  end.

(** [Cause.squash]: the first typed failure, else the first defect, else
    an [InterruptedException] built from the interruptors of the cause.
    The exception object and the view of an [E] as [unknown] are
    parameters. *)
Definition squash (asValue : E -> JsValue)
    (interruptedException : Cause E -> JsValue)
    (self : Cause E) : JsValue :=
  match failureOption self with
  | Some error => asValue error
  | None =>
      match head (defects self) with
      | Some defect => defect
      | None => interruptedException self
      end
  end.
End WithError.
End Cause.

(** ** The observable trace *)

(** What the bridge does to the outside world: calls on the notification
    port ([toast.error], [toast.success]), entries of the error log and the
    boundaries of tracing spans.  [ToastErrorValue] is a call of
    [toast.error] with an argument that is not a string. *)
Inductive Event : Type :=
  | ToastError (message : string)
  | ToastErrorValue (argument : JsValue)
  | ToastSuccess (message : string)
  | LogError (cause : Cause EffectfulError)
  | SpanStart (name : string)
  | SpanEnd (name : string).

(** The events so far, oldest first. *)
Definition World : Type := list Event.

Definition emit (ev : Event) (w : World) : World := w ++ [ev].

(** The string messages passed to [toast.error], in call order. *)
Definition notifyFailureCalls (w : World) : list string :=
  omap (fun ev => match ev with ToastError m => Some m | _ => None end) w.

(** The messages passed to [toast.success], in call order. *)
Definition notifySuccessCalls (w : World) : list string :=
  omap (fun ev => match ev with ToastSuccess m => Some m | _ => None end) w.


(** The causes written to the error log, in order. *)
Definition loggedCauses (w : World) : list (Cause EffectfulError) :=
  omap (fun ev => match ev with LogError c => Some c | _ => None end) w.

(** ** effect/Effect, as far as the runner uses it

    The combinators below belong to the [effect] library; each follows the
    library's own definition ([tapError] and [tapErrorCause] are
    [matchCauseEffect] with [zipRight], [tapError] going through
    [Cause.failureOrCause]). *)

(** An effect computation with failure type [EffectfulError]: run from a
    world, it ends in an [Exit] and a later world. *)
Definition Effect (A : Type) : Type :=
  World -> Exit A EffectfulError * World.

(** A side-effecting JavaScript callback: it returns or throws. *)
Definition Thunk (A : Type) : Type := World -> Completion A * World.

Module Effect.
Section Combinators.
Context {A B : Type}.

Definition succeed (value : A) : Effect A := fun w => (Success value, w).

Definition failCause (cause : Cause EffectfulError) : Effect A :=
  fun w => (Failure cause, w).

Definition fail (error : EffectfulError) : Effect A := failCause (Fail error).

Definition die (defect : JsValue) : Effect A := failCause (Die defect).

(** [sync]: an exception thrown by the thunk becomes a defect. *)
Definition sync (thunk : Thunk A) : Effect A :=
  fun w =>
    match thunk w with
    | (Normal value, w') => (Success value, w')
    | (Throw thrown, w') => (Failure (Die thrown), w')
    end.

Definition matchCauseEffect (self : Effect A)
    (onFailure : Cause EffectfulError -> Effect B)
    (onSuccess : A -> Effect B) : Effect B :=
  fun w =>
    match self w with
    | (Success value, w') => onSuccess value w'
    | (Failure cause, w') => onFailure cause w'
    end.

End Combinators.

Section Taps.
Context {A : Type}.

Definition zipRight {X : Type} (self : Effect X) (that : Effect A) : Effect A :=
  matchCauseEffect self failCause (fun _ => that).

(** [tapError]: when the cause holds a typed failure, run [f] on the first
    one, then fail with the unchanged cause; when [f] fails itself, its
    cause replaces the original one. *)
Definition tapError {X : Type} (f : EffectfulError -> Effect X)
    (self : Effect A) : Effect A :=
  matchCauseEffect self
    (fun cause =>
       match Cause.failureOrCause cause with
       | inl error => zipRight (f error) (failCause cause)
       | inr _ => failCause cause
       end)
    succeed.

(** [tap] with a callback that returns no effect: the callback runs, the
    value is kept; an exception thrown by the callback becomes a defect. *)
Definition tap (f : A -> Thunk unit) (self : Effect A) : Effect A :=
  matchCauseEffect self failCause
    (fun value w =>
       match f value w with
       | (Normal _, w') => (Success value, w')
       | (Throw thrown, w') => (Failure (Die thrown), w')
       end).

Definition tapErrorCause {X : Type} (f : Cause EffectfulError -> Effect X)
    (self : Effect A) : Effect A :=
  matchCauseEffect self
    (fun cause => zipRight (f cause) (failCause cause))
    succeed.

(** [withSpan]: the computation runs inside a span that is opened before it
    and closed when it exits; the exit is unchanged. *)
Definition withSpan (name : string) (self : Effect A) : Effect A :=
  fun w => let '(exit, w') := self (emit (SpanStart name) w) in
           (exit, emit (SpanEnd name) w').

End Taps.

Definition logError (cause : Cause EffectfulError) : Effect unit :=
  fun w => (Success tt, emit (LogError cause) w).

End Effect.

Module Exit.

(** [Exit.match({ onSuccess, onFailure })]. *)
Definition match_ {A E R : Type} (onSuccess : A -> R)
    (onFailure : Cause E -> R) (self : Exit A E) : R :=
  match self with
  | Success value => onSuccess value
  | Failure cause => onFailure cause
  end.

End Exit.

(** ** Promises *)

(** What the runner throws: the typed failure itself or a [QueryDefect]
    (the union [E | QueryDefect] of the hooks' error type). *)
Inductive Rejection : Type :=
  | RejectTyped (error : EffectfulError)
  | RejectDefect (defect : QueryDefect).

Inductive Settled (A : Type) : Type :=
  | Fulfilled (value : A)
  | Rejected (reason : Rejection).

Arguments Fulfilled {A} value.
Arguments Rejected {A} reason.

(** A promise, by the state it settles in and the world at that point. *)
Definition Promise (A : Type) : Type := World -> Settled A * World.

Module Promise.

Definition resolve {A : Type} (value : A) : Promise A :=
  fun w => (Fulfilled value, w).

(** A callback body that ends in [throw reason]. *)
Definition throw {A : Type} (reason : Rejection) : Promise A :=
  fun w => (Rejected reason, w).

(** [promise.then(onFulfilled)]: the callback's returned promise is adopted,
    a throw inside it rejects, a rejection passes through. *)
Definition then_ {A B : Type} (self : Promise A)
    (onFulfilled : A -> Promise B) : Promise B :=
  fun w =>
    match self w with
    | (Fulfilled value, w') => onFulfilled value w'
    | (Rejected reason, w') => (Rejected reason, w')
    end.

End Promise.

(** [runtime.runPromiseExit]: runs the effect; the promise always fulfils,
    with the exit. *)
Definition runPromiseExit {A : Type} (self : Effect A)
    : Promise (Exit A EffectfulError) :=
  fun w => let '(exit, w') := self w in (Fulfilled exit, w').

(** ** Per-call configuration *)

(** A value of type [boolean | string]. *)
Inductive BoolOrString : Type :=
  | IsBool (b : bool)
  | IsString (s : string).

(** [x !== false]. *)
Definition notFalse (x : BoolOrString) : bool :=
  match x with IsBool false => false | _ => true end.

(** [x === literal] for a string literal. *)
Definition strictEqString (x : BoolOrString) (literal : string) : bool :=
  match x with IsString s => bool_decide (s = literal) | IsBool _ => false end.

(** [ToastifyErrorsConfig]: the optional [orElse] property and the handlers
    stored under the failure tags (the remaining properties of the object). *)
Record ToastifyErrorsConfig : Type := {
  orElse : option BoolOrString;
  handlers : gmap string (EffectfulError -> string);
}.

Record UseRunnerOpts (A : Type) : Type := {
  toastifyDefects : option BoolOrString;
  toastifyErrors : option ToastifyErrorsConfig;
  toastifySuccess : option (A -> string);
}.

Arguments toastifyDefects {A} _.
Arguments toastifyErrors {A} _.
Arguments toastifySuccess {A} _.

(** The notification port obtained from [useToastConfig]. *)
Module toast.

Definition error (message : string) : Thunk unit :=
  fun w => (Normal tt, emit (ToastError message) w).

(** [toast.error] reached with a value whose static type is [any]. *)
Definition errorAny (message : JsValue) : Thunk unit :=
  match message with
  | JsString text => error text
  | _ => fun w => (Normal tt, emit (ToastErrorValue message) w)
  end.

Definition success (message : string) : Thunk unit :=
  fun w => (Normal tt, emit (ToastSuccess message) w).

End toast.

(** ** The runner *)

(** What [tagConfigs[errorTag]] yields when it is not [undefined]: a handler
    of the configuration or a member that the object inherits. *)
Inductive TagHandler : Type :=
  | Configured (handler : EffectfulError -> string)
  | Inherited (member : JsValue).

Section CreateEffectQuery.

(** The [InterruptedException] that [Cause.squash] builds for a cause with
    neither failure nor defect. *)
Variable interruptedException : Cause EffectfulError -> JsValue.

(** The [TypeError] that the engine throws when [callee] is called with an
    undefined receiver and cannot run; its text is the engine's. *)
Variable typeError : JsValue -> JsValue.

Context {A : Type}.

(** [callee(argument)] in strict code, so with [this] undefined.
    [Object.prototype.toString] answers for the receiver, [Object] returns
    an argument that is an object; the other members of [Object.prototype]
    convert the receiver to an object first and throw, and a value that is
    not a function cannot be called. *)
Definition callWithUndefinedThis (callee argument : JsValue)
    : Completion JsValue :=
  match callee with
  | JsFunction name =>
      if bool_decide (name = "Object.prototype.toString")
      then Normal (JsString "[object Undefined]")
      else if bool_decide (name = "Object")
      then Normal argument
      else Throw (typeError callee)
  | _ => Throw (typeError callee)
  end.

(** [toastifyErrors = {}] when absent. *)
Definition toastifyErrorsOf (opts : UseRunnerOpts A) : ToastifyErrorsConfig :=
  default {| orElse := None; handlers := ∅ |} (toastifyErrors opts).

(** [toastifyDefects = true] when absent. *)
Definition toastifyDefectsOf (opts : UseRunnerOpts A) : BoolOrString :=
  default (IsBool true) (toastifyDefects opts).

(** [const { orElse = "extractMessage", ...tagConfigs } = toastifyErrors]. *)
Definition orElseOf (config : ToastifyErrorsConfig) : BoolOrString :=
  default (IsString "extractMessage") (orElse config).

(** The rest of that destructuring: the own properties of the new object
    [tagConfigs], every property of the configuration but [orElse]. *)
Definition tagConfigs (config : ToastifyErrorsConfig)
    : gmap string (EffectfulError -> string) :=
  delete "orElse" (handlers config).

(** [tagConfigs[errorTag]]: [tagConfigs] is a plain object, so a name that
    it does not own is looked up in [Object.prototype]; the accessor
    [__proto__] yields that prototype itself.  [None] is [undefined]. *)
Definition lookupTagHandler (config : ToastifyErrorsConfig)
    (errorTag : string) : option TagHandler :=
  match tagConfigs config !! errorTag with
  | Some handler => Some (Configured handler)
  | None =>
      if bool_decide (errorTag = "__proto__")
      then Some (Inherited ObjectPrototype)
      else
        match getProperty errorTag ObjectPrototype with
        | JsUndefined => None
        | member => Some (Inherited member)
        end
  end.

(** The body of the [Effect.sync] inside [Effect.tapError]. *)
Definition onTypedError (config : ToastifyErrorsConfig)
    (error : EffectfulError) : Thunk unit :=
  let orElse := orElseOf config in
  let errorTag := _tag error in
  match lookupTagHandler config errorTag with
  | Some (Configured tagHandler) =>
      let message := tagHandler error in
      toast.error message
  | Some (Inherited tagHandler) =>
      match callWithUndefinedThis tagHandler (asUnknown error) with
      | Normal message => toast.errorAny message
      | Throw thrown => fun w => (Throw thrown, w)
      end
  | None =>
      if notFalse orElse then
        if strictEqString orElse "extractMessage"
           && hasStringMessage (asUnknown error)
        then
          match getProperty "message" (asUnknown error) with
          | JsString message => toast.error message
          | _ => fun w => (Normal tt, w) (* excluded by [hasStringMessage] *)
          end
        else
          match orElse with
          | IsString literal => toast.error literal
          | IsBool _ => toast.error DEFAULT_ERROR_MESSAGE
          end
      else fun w => (Normal tt, w)
  end.

(** The callback of [Effect.tap]. *)
Definition onResult (opts : UseRunnerOpts A) (result : A) : Thunk unit :=
  match toastifySuccess opts with
  | Some toastifySuccess => toast.success (toastifySuccess result)
  | None => fun w => (Normal tt, w)
  end.

(** The [onFailure] arm of [Exit.match].  The first case is the guard
    [Cause.isFailType(cause)], which narrows [cause] to its [Fail] node. *)
Definition onFailure (opts : UseRunnerOpts A)
    (cause : Cause EffectfulError) : Promise A :=
  match cause with
  | Fail error => Promise.throw (RejectTyped error)
  | _ =>
      let toastifyDefects := toastifyDefectsOf opts in
      let thrown :=
        RejectDefect
          {| cause := Cause.squash asUnknown interruptedException cause |} in
      if notFalse toastifyDefects then
        let defectMessage :=
          match toastifyDefects with
          | IsString literal => literal
          | IsBool _ => DEFAULT_DEFECT_MESSAGE
          end in
        fun w => Promise.throw thrown (snd (toast.error defectMessage w))
      else Promise.throw thrown
  end.

Definition useRunner (opts : UseRunnerOpts A) (span : string)
    (self : Effect A) : Promise A :=
  Promise.then_
    (runPromiseExit
       (Effect.withSpan span
          (Effect.tapErrorCause Effect.logError
             (Effect.tap (onResult opts)
                (Effect.tapError
                   (fun error =>
                      Effect.sync (onTypedError (toastifyErrorsOf opts) error))
                   self)))))
    (Exit.match_ Promise.resolve (onFailure opts)).

(** The cause and the world after the [tapError] stage of a run that
    failed with [cause] in world [w]: the callback has run on the first
    typed failure of the cause, if there is one, and what it threw has
    replaced the cause. *)
Definition afterTapError (opts : UseRunnerOpts A)
    (cause : Cause EffectfulError) (w : World)
    : Cause EffectfulError * World :=
  match Cause.failureOption cause with
  | Some error =>
      match onTypedError (toastifyErrorsOf opts) error w with
      | (Normal _, w') => (cause, w')
      | (Throw thrown, w') => (Die thrown, w')
      end
  | None => (cause, w)
  end.

End CreateEffectQuery.

(** ** Hook adapters *)

(** A [queryFn] option: the fetching library's [skipToken] or a function. *)
Inductive QueryFnOrSkip (F : Type) : Type :=
  | skipToken
  | QueryFn (f : F).

Arguments skipToken {F}.
Arguments QueryFn {F} f.

(** [QueryKey = readonly [string, QueryVariables?]]. *)
Definition QueryKey : Type := string * option (gmap string JsValue).

Section Hooks.

Variable interruptedException : Cause EffectfulError -> JsValue.
Variable typeError : JsValue -> JsValue.

(** Types owned by the fetching library and by [effect/Duration]:
    [QueryFunctionContext], the page parameter and its two derivation
    functions, [DurationInput], the millisecond count, and the options that
    the adapters pass through untouched. *)
Variables (QueryFunctionContext PageParam : Type).
Variables (GetNextPageParamFunction GetPreviousPageParamFunction : Type).
Variables (DurationInput Millis PassThrough : Type).

(** [Duration.toMillis]. *)
Variable toMillis : DurationInput -> Millis.

Context {A : Type}.

(** Query options.  With [Fn := QueryFunctionContext -> Effect A] and
    [Time := DurationInput] this is [EffectfulQueryOptions]; with
    [Fn := QueryFunctionContext -> Promise A] and [Time := Millis] it is the
    object given to [useQuery]. *)
Record QueryOptions (Fn Time : Type) : Type := {
  queryKey : QueryKey;
  queryFn : QueryFnOrSkip Fn;
  staleTime : option Time;
  gcTime : option Time;
  throwOnError : option bool;
  runnerOpts : UseRunnerOpts A;
  passThrough : PassThrough;
}.

Arguments queryKey {Fn Time} _.
Arguments queryFn {Fn Time} _.
Arguments staleTime {Fn Time} _.
Arguments gcTime {Fn Time} _.
Arguments throwOnError {Fn Time} _.
Arguments runnerOpts {Fn Time} _.
Arguments passThrough {Fn Time} _.

(** Infinite-query options: query options and the page-parameter fields. *)
Record InfiniteQueryOptions (Fn Time : Type) : Type := {
  query : QueryOptions Fn Time;
  initialPageParam : PageParam;
  getNextPageParam : GetNextPageParamFunction;
  getPreviousPageParam : option GetPreviousPageParamFunction;
}.

Arguments query {Fn Time} _.
Arguments initialPageParam {Fn Time} _.
Arguments getNextPageParam {Fn Time} _.
Arguments getPreviousPageParam {Fn Time} _.

Definition EffectfulQueryFunction : Type := QueryFunctionContext -> Effect A.
Definition QueryFunction : Type := QueryFunctionContext -> Promise A.

(** The memoised [queryFn] closure of both query hooks: build the effect
    from the context and pipe it through the runner. *)
Definition wrapQueryFn (opts : UseRunnerOpts A) (spanName : string)
    (effectfulQueryFn : EffectfulQueryFunction) : QueryFunction :=
  fun context =>
    let effect := effectfulQueryFn context in
    useRunner interruptedException typeError opts spanName effect.

(** The object literal that [useEffectQuery] passes to [useQuery]. *)
Definition useEffectQuery_options
    (options : QueryOptions EffectfulQueryFunction DurationInput)
    : QueryOptions QueryFunction Millis :=
  let spanName := fst (queryKey options) in
  {| queryKey := queryKey options;
     queryFn :=
       match queryFn options with
       | skipToken => skipToken
       | QueryFn f => QueryFn (wrapQueryFn (runnerOpts options) spanName f)
       end;
     staleTime := toMillis <$> staleTime options;
     gcTime := toMillis <$> gcTime options;
     throwOnError := Some false;
     runnerOpts := runnerOpts options;
     passThrough := passThrough options |}.

(** The object literal that [useEffectInfiniteQuery] passes to
    [useInfiniteQuery]. *)
Definition useEffectInfiniteQuery_options
    (options : InfiniteQueryOptions EffectfulQueryFunction DurationInput)
    : InfiniteQueryOptions QueryFunction Millis :=
  let spanName := fst (queryKey (query options)) in
  {| query :=
       {| queryKey := queryKey (query options);
          queryFn :=
            match queryFn (query options) with
            | skipToken => skipToken
            | QueryFn f =>
                QueryFn (wrapQueryFn (runnerOpts (query options)) spanName f)
            end;
          staleTime := toMillis <$> staleTime (query options);
          gcTime := toMillis <$> gcTime (query options);
          throwOnError := Some false;
          runnerOpts := runnerOpts (query options);
          passThrough := passThrough (query options) |};
     initialPageParam := initialPageParam options;
     getNextPageParam := getNextPageParam options;
     getPreviousPageParam := getPreviousPageParam options |}.

(** The hooks proper: the fetching library's primitive applied to the
    object above. *)
Definition useEffectQuery {UseQueryResult : Type}
    (useQuery : QueryOptions QueryFunction Millis -> UseQueryResult)
    (options : QueryOptions EffectfulQueryFunction DurationInput)
    : UseQueryResult :=
  useQuery (useEffectQuery_options options).

Definition useEffectInfiniteQuery {UseInfiniteQueryResult : Type}
    (useInfiniteQuery :
       InfiniteQueryOptions QueryFunction Millis -> UseInfiniteQueryResult)
    (options : InfiniteQueryOptions EffectfulQueryFunction DurationInput)
    : UseInfiniteQueryResult :=
  useInfiniteQuery (useEffectInfiniteQuery_options options).

(** How the fetching library fetches: it calls the [queryFn] it holds with
    a context.  Under [skipToken] it holds no function, the query is
    disabled and there is nothing to call ([None]). *)
Definition fetchWith (queryFn : QueryFnOrSkip QueryFunction)
    (context : QueryFunctionContext) : option (Promise A) :=
  match queryFn with
  | skipToken => None
  | QueryFn f => Some (f context)
  end.

(** The world after the fetching library has fetched once from [w]. *)
Definition worldAfterFetch (queryFn : QueryFnOrSkip QueryFunction)
    (context : QueryFunctionContext) (w : World) : World :=
  match fetchWith queryFn context with
  | Some promise => snd (promise w)
  | None => w
  end.

End Hooks.

Arguments queryKey {PassThrough A Fn Time} _.
Arguments queryFn {PassThrough A Fn Time} _.
Arguments staleTime {PassThrough A Fn Time} _.
Arguments gcTime {PassThrough A Fn Time} _.
Arguments throwOnError {PassThrough A Fn Time} _.
Arguments runnerOpts {PassThrough A Fn Time} _.
Arguments passThrough {PassThrough A Fn Time} _.
Arguments query {PageParam GetNextPageParamFunction
  GetPreviousPageParamFunction PassThrough A Fn Time} _.
Arguments useEffectQuery_options interruptedException typeError
  {QueryFunctionContext DurationInput Millis PassThrough} toMillis {A} options.
Arguments useEffectInfiniteQuery_options interruptedException typeError
  {QueryFunctionContext PageParam GetNextPageParamFunction
   GetPreviousPageParamFunction DurationInput Millis PassThrough}
  toMillis {A} options.
Arguments fetchWith {QueryFunctionContext A} queryFn context.
Arguments worldAfterFetch {QueryFunctionContext A} queryFn context w.

(** ** The mutation adapter *)

Module Mutation.
Section UseEffectMutation.

Variable interruptedException : Cause EffectfulError -> JsValue.
Variable typeError : JsValue -> JsValue.

(** The type of the mutation input and the options of the fetching library
    that the adapter passes through untouched. *)
Variables (TVariables PassThrough : Type).

Context {A : Type}.

(** Mutation options.  With [Fn := TVariables -> Effect A] this is
    [EffectfulMutationOptions]; with [Fn := TVariables -> Promise A] it is
    the object given to [useMutation]. *)
Record MutationOptions (Fn : Type) : Type := {
  mutationKey : QueryKey;
  mutationFn : Fn;
  throwOnError : option bool;
  runnerOpts : UseRunnerOpts A;
  passThrough : PassThrough;
}.

Arguments mutationKey {Fn} _.
Arguments mutationFn {Fn} _.
Arguments throwOnError {Fn} _.
Arguments runnerOpts {Fn} _.
Arguments passThrough {Fn} _.

(** The object literal that [useEffectMutation] passes to [useMutation]:
    [mutationFn] builds the effect from the variables and pipes it through
    the runner under the first element of the key. *)
Definition useEffectMutation_options
    (options : MutationOptions (TVariables -> Effect A))
    : MutationOptions (TVariables -> Promise A) :=
  let effectRunner :=
    useRunner interruptedException typeError (runnerOpts options) in
  let spanName := fst (mutationKey options) in
  {| mutationKey := mutationKey options;
     mutationFn :=
       fun variables =>
         let effect := mutationFn options variables in
         effectRunner spanName effect;
     throwOnError := Some false;
     runnerOpts := runnerOpts options;
     passThrough := passThrough options |}.

Definition useEffectMutation {UseMutationResult : Type}
    (useMutation :
       MutationOptions (TVariables -> Promise A) -> UseMutationResult)
    (options : MutationOptions (TVariables -> Effect A))
    : UseMutationResult :=
  useMutation (useEffectMutation_options options).

End UseEffectMutation.

Arguments mutationKey {PassThrough A Fn} _.
Arguments mutationFn {PassThrough A Fn} _.
Arguments throwOnError {PassThrough A Fn} _.
Arguments runnerOpts {PassThrough A Fn} _.
Arguments passThrough {PassThrough A Fn} _.
Arguments useEffectMutation_options interruptedException typeError
  {TVariables PassThrough A} options.

End Mutation.

(** Concrete exception builders and configuration, for running the model
    on examples. *)
Definition sampleInterruptedException (c : Cause EffectfulError) : JsValue :=
  JsObject {[ "_tag" := JsString "InterruptedException" ]} ErrorPrototype.

Definition sampleTypeError (callee : JsValue) : JsValue :=
  JsObject {[ "name" := JsString "TypeError" ]} ErrorPrototype.

Definition defaultOpts {A : Type} : UseRunnerOpts A :=
  {| toastifyDefects := None; toastifyErrors := None;
     toastifySuccess := None |}.

(** [{ _tag: "X" }], [{ _tag: "X", message: "boom" }] and
    [{ _tag: "NotFound" }]. *)
Definition errorBare : EffectfulError :=
  {| _tag := "X"; fields := ∅; prototype := ObjectPrototype |}.

Definition errorBoom : EffectfulError :=
  {| _tag := "X"; fields := {[ "message" := JsString "boom" ]};
     prototype := ObjectPrototype |}.

Definition errorNotFound : EffectfulError :=
  {| _tag := "NotFound"; fields := ∅; prototype := ObjectPrototype |}.

(** [{ _tag: "__proto__" }] and [{ _tag: "toString", message: "boom" }]:
    typed failures whose tag is the name of a member of
    [Object.prototype]. *)
Definition errorProto : EffectfulError :=
  {| _tag := "__proto__"; fields := ∅; prototype := ObjectPrototype |}.

Definition errorToString : EffectfulError :=
  {| _tag := "toString"; fields := {[ "message" := JsString "boom" ]};
     prototype := ObjectPrototype |}.

(** [new Missing()] for [class Missing extends Data.TaggedError("Missing")]:
    no own [message], and [Error.prototype] further up the chain. *)
Definition errorMissing : EffectfulError :=
  {| _tag := "Missing"; fields := ∅;
     prototype := JsObject {[ "name" := JsString "Missing" ]} ErrorPrototype |}.

(** A typed failure tagged [__proto__] followed by a defect. *)
Definition causeProtoComposite : Cause EffectfulError :=
  Sequential (Fail errorProto) (Die (JsString "crash")).

(** [{ toastifyErrors: { NotFound: () => "Item missing", orElse: true } }]. *)
Definition optsNotFound {A : Type} : UseRunnerOpts A :=
  {| toastifyDefects := None;
     toastifyErrors :=
       Some {| orElse := Some (IsBool true);
               handlers := {[ "NotFound" := fun _ => "Item missing" ]} |};
     toastifySuccess := None |}.

(** [{ toastifySuccess: v => "ok:" + v }] on integers that JavaScript
    prints in full. *)
Definition optsOk : UseRunnerOpts Z :=
  {| toastifyDefects := None; toastifyErrors := None;
     toastifySuccess := Some (fun v => "ok:" +:+ pretty v) |}.

(** [{ toastifyDefects: false }]. *)
Definition optsSilentDefects {A : Type} : UseRunnerOpts A :=
  {| toastifyDefects := Some (IsBool false); toastifyErrors := None;
     toastifySuccess := None |}.

(** A typed failure followed by a defect, as when a finalizer dies after the
    computation has failed. *)
Definition causeComposite : Cause EffectfulError :=
  Sequential (Fail errorBoom) (Die (JsString "crash")).

(** Query options with the skip token, over trivial library types. *)
Definition skippedQuery
    : @QueryOptions unit Z (@EffectfulQueryFunction unit Z) Z :=
  {| queryKey := ("todos", None); queryFn := skipToken;
     staleTime := Some 5%Z; gcTime := None; throwOnError := None;
     runnerOpts := defaultOpts; passThrough := tt |}.

Definition skippedInfiniteQuery
    : @InfiniteQueryOptions Z unit unit unit Z
        (@EffectfulQueryFunction unit Z) Z :=
  {| query := skippedQuery; initialPageParam := 0%Z;
     getNextPageParam := tt; getPreviousPageParam := None |}.

(** [{ toastifyErrors: { orElse: false } }],
    [{ toastifyErrors: { orElse: "Request failed" } }] and
    [{ toastifyErrors: { orElse: true } }]. *)
Definition optsOrElse {A : Type} (policy : BoolOrString) : UseRunnerOpts A :=
  {| toastifyDefects := None;
     toastifyErrors := Some {| orElse := Some policy; handlers := ∅ |};
     toastifySuccess := None |}.




(** * Properties *)

(** ** How a run of the runner unfolds *)

Section RunnerFacts.

Variable interruptedException : Cause EffectfulError -> JsValue.
Variable typeError : JsValue -> JsValue.
Context {A : Type}.
Implicit Types (opts : UseRunnerOpts A) (self : Effect A) (w : World).
Implicit Types (c : Cause EffectfulError) (e : EffectfulError).
Implicit Types (config : ToastifyErrorsConfig).

Lemma isFailType_true c : Cause.isFailType c = true ↔ ∃ e, c = Fail e.
Proof.
  split.
  - destruct c; simpl; intros H; try discriminate. eauto.
  - intros [e ->]. reflexivity.
Qed.

Lemma isFailType_false c : Cause.isFailType c = false ↔ ∀ e, c ≠ Fail e.
Proof.
  split.
  - intros H e ->. discriminate.
  - intros H. destruct c; simpl; try reflexivity. destruct (H error eq_refl).
Qed.

Lemma failureOption_None_not_Fail c :
  Cause.failureOption c = None → Cause.isFailType c = false.
Proof. destruct c; simpl; congruence. Qed.

(** A failed run: the [tapError] stage, then the log entry, the end of the
    span and the [onFailure] arm, on the cause that the stage leaves. *)
Lemma useRunner_failure opts span self w w1 c :
  self (emit (SpanStart span) w) = (Failure c, w1) →
  useRunner interruptedException typeError opts span self w
  = onFailure interruptedException opts
      (fst (afterTapError typeError opts c w1))
      (emit (SpanEnd span)
         (emit (LogError (fst (afterTapError typeError opts c w1)))
            (snd (afterTapError typeError opts c w1)))).
Proof.
  intros Hself.
  unfold useRunner, Promise.then_, runPromiseExit, Effect.withSpan,
    Effect.tapErrorCause, Effect.tap, Effect.tapError,
    Effect.matchCauseEffect, afterTapError, Cause.failureOrCause.
  rewrite Hself.
  destruct (Cause.failureOption c) as [e|]; simpl; [|reflexivity].
  unfold Effect.zipRight, Effect.matchCauseEffect, Effect.sync.
  destruct (onTypedError typeError (toastifyErrorsOf opts) e w1)
    as [[[]|thrown] w2]; reflexivity.
Qed.

Lemma useRunner_success opts span self w w1 v :
  self (emit (SpanStart span) w) = (Success v, w1) →
  useRunner interruptedException typeError opts span self w
  = (Fulfilled v, emit (SpanEnd span) (snd (onResult opts v w1))).
Proof.
  intros Hself.
  unfold useRunner, Promise.then_, runPromiseExit, Effect.withSpan,
    Effect.tapErrorCause, Effect.tap, Effect.tapError,
    Effect.matchCauseEffect.
  rewrite Hself. simpl.
  unfold onResult. destruct (toastifySuccess opts); reflexivity.
Qed.

(** The defect arm always throws the [QueryDefect] built from the squashed
    cause, whatever it notifies. *)
Lemma onFailure_defect opts c w :
  Cause.isFailType c = false →
  fst (onFailure interruptedException opts c w)
  = Rejected
      (RejectDefect
         {| cause := Cause.squash asUnknown interruptedException c |}).
Proof.
  intros Hc. unfold onFailure.
  destruct c; try discriminate; destruct (notFalse _); reflexivity.
Qed.

(** The events of the [onFailure] arm when the cause is a defect. *)
Lemma onFailure_defect_trace opts c w :
  Cause.isFailType c = false →
  snd (onFailure interruptedException opts c w)
  = w ++ match toastifyDefectsOf opts with
         | IsBool false => []
         | IsString literal => [ToastError literal]
         | IsBool true => [ToastError DEFAULT_DEFECT_MESSAGE]
         end.
Proof.
  intros Hc. unfold onFailure.
  destruct c; try discriminate;
    destruct (toastifyDefectsOf opts) as [[]|literal]; simpl;
    by rewrite ?app_nil_r.
Qed.


(** A configured handler is found before anything inherited. *)
Lemma lookupTagHandler_configured config tag h :
  tagConfigs config !! tag = Some h →
  lookupTagHandler config tag = Some (Configured h).
Proof. intros Hh. unfold lookupTagHandler. by rewrite Hh. Qed.

Lemma onTypedError_handler config e h w :
  tagConfigs config !! _tag e = Some h →
  onTypedError typeError config e w
  = (Normal tt, emit (ToastError (h e)) w).
Proof.
  intros Hh. unfold onTypedError.
  by rewrite (lookupTagHandler_configured _ _ _ Hh).
Qed.

(** The [tapError] callback calls [toast.error] at most once and does
    nothing else; when it throws it has notified nothing. *)
Lemma onTypedError_emits config e w :
  ∃ completion typed,
    onTypedError typeError config e w = (completion, w ++ typed)
    ∧ (typed = [] ∨ (∃ m, typed = [ToastError m])
       ∨ (∃ v, typed = [ToastErrorValue v]))
    ∧ (∀ thrown, completion = Throw thrown → typed = []).
Proof.
  unfold onTypedError.
  destruct (lookupTagHandler config (_tag e)) as [[h|member]|].
  - exists (Normal tt), [ToastError (h e)]. split; [reflexivity|].
    split; [eauto | discriminate].
  - destruct (callWithUndefinedThis typeError member (asUnknown e))
      as [message|thrown].
    + exists (Normal tt).
      destruct message; simpl;
        first [ eexists [ToastError _]; split; [reflexivity|];
                split; [eauto | discriminate]
              | eexists [ToastErrorValue _]; split; [reflexivity|];
                split; [eauto | discriminate] ].
    + exists (Throw thrown), []. rewrite app_nil_r. by eauto.
  - destruct (notFalse (orElseOf config));
      [|exists (Normal tt), []; rewrite app_nil_r;
        split; [reflexivity|]; split; [eauto | discriminate]].
    destruct (_ && _).
    + destruct (getProperty "message" (asUnknown e));
        first [ eexists (Normal tt), [ToastError _]; split; [reflexivity|];
                split; [eauto | discriminate]
              | exists (Normal tt), []; rewrite app_nil_r;
                split; [reflexivity|]; split; [eauto | discriminate] ].
    + destruct (orElseOf config) as [b|s];
        eexists (Normal tt), [ToastError _];
        (split; [reflexivity|]; split; [eauto | discriminate]).
Qed.

(** Only a member inherited from [Object.prototype] makes the callback
    throw. *)
Lemma onTypedError_returns config e w :
  (∀ member, lookupTagHandler config (_tag e) ≠ Some (Inherited member)) →
  fst (onTypedError typeError config e w) = Normal tt.
Proof.
  intros Hown. unfold onTypedError.
  destruct (lookupTagHandler config (_tag e)) as [[h|member]|].
  - reflexivity.
  - by destruct (Hown member).
  - destruct (notFalse (orElseOf config)); [|reflexivity].
    destruct (_ && _).
    + by destruct (getProperty "message" (asUnknown e)).
    + by destruct (orElseOf config).
Qed.

(** The [tapError] stage: at most one call of [toast.error], and a cause
    that is the original one unless the callback threw. *)
Lemma afterTapError_spec opts c w :
  ∃ typed,
    snd (afterTapError typeError opts c w) = w ++ typed
    ∧ (typed = [] ∨ (∃ m, typed = [ToastError m])
       ∨ (∃ v, typed = [ToastErrorValue v]))
    ∧ (Cause.failureOption c = None → typed = [])
    ∧ (fst (afterTapError typeError opts c w) = c
       ∨ (typed = []
          ∧ ∃ thrown, fst (afterTapError typeError opts c w) = Die thrown)).
Proof.
  unfold afterTapError.
  destruct (Cause.failureOption c) as [e|] eqn:He.
  - destruct (onTypedError_emits (toastifyErrorsOf opts) e w)
      as (completion & typed & -> & Hshape & Hthrow).
    exists typed. destruct completion as [[]|thrown]; simpl.
    + split; [done|]. split; [done|]. split; [discriminate | by left].
    + rewrite (Hthrow thrown eq_refl). rewrite app_nil_r.
      split; [done|]. split; [by left|]. split; [done|]. right. eauto.
  - exists []. rewrite app_nil_r. simpl.
    split; [done|]. split; [by left|]. split; [done | by left].
Qed.

Lemma afterTapError_no_failure opts c w :
  Cause.failureOption c = None →
  afterTapError typeError opts c w = (c, w).
Proof. intros He. unfold afterTapError. by rewrite He. Qed.

Lemma afterTapError_returns opts c e w :
  Cause.failureOption c = Some e →
  fst (onTypedError typeError (toastifyErrorsOf opts) e w) = Normal tt →
  afterTapError typeError opts c w
  = (c, snd (onTypedError typeError (toastifyErrorsOf opts) e w)).
Proof.
  intros He Hret. unfold afterTapError. rewrite He.
  destruct (onTypedError typeError (toastifyErrorsOf opts) e w)
    as [[[]|thrown] w']; [reflexivity | discriminate].
Qed.

(** Unless an inherited member is found for the tag of the first typed
    failure, the stage leaves the cause as it is. *)
Lemma afterTapError_cause opts c w :
  (∀ e member,
     Cause.failureOption c = Some e →
     lookupTagHandler (toastifyErrorsOf opts) (_tag e)
     ≠ Some (Inherited member)) →
  fst (afterTapError typeError opts c w) = c.
Proof.
  intros Hown. destruct (Cause.failureOption c) as [e|] eqn:He.
  - rewrite (afterTapError_returns _ _ e); [reflexivity | done |].
    apply onTypedError_returns. intros member. by apply Hown.
  - by rewrite afterTapError_no_failure.
Qed.

(** A cause that is not a single typed failure stays one through the
    stage. *)
Lemma afterTapError_not_Fail opts c w :
  Cause.isFailType c = false →
  Cause.isFailType (fst (afterTapError typeError opts c w)) = false.
Proof.
  intros Hc. unfold afterTapError.
  destruct (Cause.failureOption c) as [e|]; [|done].
  by destruct (onTypedError typeError (toastifyErrorsOf opts) e w)
    as [[[]|thrown] w'].
Qed.

End RunnerFacts.

(** ** Settling the promise *)

Section Settling.

Variable interruptedException : Cause EffectfulError -> JsValue.
Variable typeError : JsValue -> JsValue.
Context {A : Type}.
Implicit Types (opts : UseRunnerOpts A) (self : Effect A) (w : World).
Implicit Types (c : Cause EffectfulError) (e : EffectfulError).

(** A run that fails with the single typed failure [e] and whose
    [tapError] callback returns: the promise rejects with [e] itself, and
    the events added are those of the callback, the log entry and the end
    of the span. *)
Lemma useRunner_typed_failure opts span self w w1 e :
  fst (onTypedError typeError (toastifyErrorsOf opts) e w1) = Normal tt →
  self (emit (SpanStart span) w) = (Failure (Fail e), w1) →
  useRunner interruptedException typeError opts span self w
  = (Rejected (RejectTyped e),
     snd (onTypedError typeError (toastifyErrorsOf opts) e w1)
       ++ [LogError (Fail e); SpanEnd span]).
Proof.
  intros Hret Hself. rewrite (useRunner_failure _ _ _ _ _ _ _ _ Hself).
  rewrite (afterTapError_returns _ _ _ e) by done.
  unfold emit. simpl. by rewrite <- app_assoc.
Qed.

(** A run that fails with a cause other than a single typed failure and
    whose [tapError] stage leaves the cause as it is: the promise rejects
    with the [QueryDefect] that wraps the squashed cause. *)
Lemma useRunner_defect opts span self w w1 c :
  Cause.isFailType c = false →
  fst (afterTapError typeError opts c w1) = c →
  self (emit (SpanStart span) w) = (Failure c, w1) →
  fst (useRunner interruptedException typeError opts span self w)
  = Rejected
      (RejectDefect
         {| cause := Cause.squash asUnknown interruptedException c |}).
Proof.
  intros Hc Hsame Hself. rewrite (useRunner_failure _ _ _ _ _ _ _ _ Hself).
  rewrite Hsame. by apply onFailure_defect.
Qed.

(** C8.  Every cause that is not exactly one [Fail] node is a defect for
    the runner: the promise rejects with a [QueryDefect], and with no typed
    failure, also when the cause is a composite that holds one. *)
Theorem non_single_failure_is_defect opts span self w w1 c :
  (∀ e, c ≠ Fail e) →
  self (emit (SpanStart span) w) = (Failure c, w1) →
  (∃ q, fst (useRunner interruptedException typeError opts span self w)
        = Rejected (RejectDefect q))
  ∧ (∀ e, fst (useRunner interruptedException typeError opts span self w)
          ≠ Rejected (RejectTyped e)).
Proof.
  intros Hc Hself. apply isFailType_false in Hc.
  rewrite (useRunner_failure _ _ _ _ _ _ _ _ Hself).
  rewrite onFailure_defect by by apply afterTapError_not_Fail.
  split; [eauto|]. intros e. discriminate.
Qed.

End Settling.

(** ** Notifications *)

Section Notifications.

Variable interruptedException : Cause EffectfulError -> JsValue.
Variable typeError : JsValue -> JsValue.
Context {A : Type}.
Implicit Types (opts : UseRunnerOpts A) (self : Effect A) (w : World).
Implicit Types (c : Cause EffectfulError) (e : EffectfulError).
Implicit Types (config : ToastifyErrorsConfig).

(** A property that reads as a string is a property that is there. *)
Lemma getProperty_in (key : string) (v : JsValue) :
  getProperty key v ≠ JsUndefined → inOperator key v = true.
Proof.
  revert v. fix IH 1. intros [| | | | | | |props proto]; simpl; try done.
  destruct (props !! key) as [value|] eqn:Hkey; intros Hread.
  - rewrite bool_decide_eq_true_2; [reflexivity | eauto].
  - rewrite (IH proto Hread). by rewrite orb_true_r.
Qed.

Lemma hasStringMessage_true (v : JsValue) :
  hasStringMessage v = true
  ↔ (∃ props proto, v = JsObject props proto)
    ∧ ∃ m, getProperty "message" v = JsString m.
Proof.
  unfold hasStringMessage, Predicate.compose, Predicate.isRecord,
    Predicate.hasProperty, Predicate.struct, Predicate.isObject.
  split.
  - destruct v as [| | | | | | |props proto]; try discriminate.
    cbn [Predicate.isRecordOrArray Predicate.isArray Predicate.isFunction
         forallb fst snd negb andb orb].
    destruct (getProperty "message" (JsObject props proto)) as [| | | |m| | |];
      cbn [Predicate.isString]; rewrite ?andb_false_r; try discriminate.
    intros _. eauto.
  - intros [(props & proto & ->) [m Hm]].
    cbn [Predicate.isRecordOrArray Predicate.isArray Predicate.isFunction
         forallb fst snd negb andb orb].
    rewrite getProperty_in by by rewrite Hm.
    by rewrite Hm.
Qed.

(** Under the guard [hasStringMessage], [error.message] is a string. *)
Lemma hasStringMessage_message (v : JsValue) :
  hasStringMessage v = true → ∃ m, getProperty "message" v = JsString m.
Proof. by intros [_ Hm]%hasStringMessage_true. Qed.

(** The extraction fallback when the failure carries a string message. *)
Lemma onTypedError_extractMessage config e m w :
  lookupTagHandler config (_tag e) = None →
  orElseOf config = IsString "extractMessage" →
  getProperty "message" (asUnknown e) = JsString m →
  onTypedError typeError config e w = (Normal tt, emit (ToastError m) w).
Proof.
  intros Hh Ho Hm. unfold onTypedError. rewrite Hh, Ho.
  assert (hasStringMessage (asUnknown e) = true) as ->.
  { apply hasStringMessage_true. split; [unfold asUnknown|]; eauto. }
  rewrite Hm. reflexivity.
Qed.

(** The extraction fallback when it does not: the [typeof orElse ===
    "string"] branch runs with the sentinel itself. *)
Lemma onTypedError_extractMessage_missing config e w :
  lookupTagHandler config (_tag e) = None →
  orElseOf config = IsString "extractMessage" →
  hasStringMessage (asUnknown e) = false →
  onTypedError typeError config e w
  = (Normal tt, emit (ToastError "extractMessage") w).
Proof.
  intros Hh Ho Hm. unfold onTypedError. rewrite Hh, Ho, Hm. reflexivity.
Qed.

(** Default [orElse], nothing found under the tag, a string [message] on
    the failure: the runner notifies the failure once, with that
    message. *)
Lemma extractMessage_notifies_message opts span self w w1 e m :
  orElse (toastifyErrorsOf opts) = None →
  lookupTagHandler (toastifyErrorsOf opts) (_tag e) = None →
  getProperty "message" (asUnknown e) = JsString m →
  self (emit (SpanStart span) w) = (Failure (Fail e), w1) →
  snd (useRunner interruptedException typeError opts span self w)
  = w1 ++ [ToastError m; LogError (Fail e); SpanEnd span].
Proof.
  intros Ho Hh Hm Hself.
  assert (orElseOf (toastifyErrorsOf opts) = IsString "extractMessage")
    as Hsentinel by (unfold orElseOf; by rewrite Ho).
  pose proof (onTypedError_extractMessage (toastifyErrorsOf opts) e m w1
                Hh Hsentinel Hm) as Hcallback.
  rewrite (useRunner_typed_failure interruptedException typeError
             opts span self w w1 e); [|by rewrite Hcallback | done].
  rewrite Hcallback. unfold emit. simpl. by rewrite <- app_assoc.
Qed.

(** Default [orElse], nothing found under the tag, no string [message]: the
    runner still notifies, with the text "extractMessage". *)
Lemma extractMessage_missing_notifies_sentinel opts span self w w1 e :
  orElse (toastifyErrorsOf opts) = None →
  lookupTagHandler (toastifyErrorsOf opts) (_tag e) = None →
  hasStringMessage (asUnknown e) = false →
  self (emit (SpanStart span) w) = (Failure (Fail e), w1) →
  snd (useRunner interruptedException typeError opts span self w)
  = w1 ++ [ToastError "extractMessage"; LogError (Fail e); SpanEnd span].
Proof.
  intros Ho Hh Hm Hself.
  assert (orElseOf (toastifyErrorsOf opts) = IsString "extractMessage")
    as Hsentinel by (unfold orElseOf; by rewrite Ho).
  pose proof (onTypedError_extractMessage_missing (toastifyErrorsOf opts)
                e w1 Hh Hsentinel Hm) as Hcallback.
  rewrite (useRunner_typed_failure interruptedException typeError
             opts span self w w1 e); [|by rewrite Hcallback | done].
  rewrite Hcallback. unfold emit. simpl. by rewrite <- app_assoc.
Qed.

(** C4.  When the tag of the typed failure [e] has a handler [h] among the
    tag handlers of [toastifyErrors], the runner adds to the trace exactly
    one failure notification, [toast.error (h e)], then the log entry and
    the end of the span: no fallback notification fires, whatever [orElse]
    is. *)
Theorem tag_handler_precedence opts span self w w1 e h :
  tagConfigs (toastifyErrorsOf opts) !! _tag e = Some h →
  self (emit (SpanStart span) w) = (Failure (Fail e), w1) →
  snd (useRunner interruptedException typeError opts span self w)
  = w1 ++ [ToastError (h e); LogError (Fail e); SpanEnd span]
  ∧ notifyFailureCalls
      (snd (useRunner interruptedException typeError opts span self w))
    = notifyFailureCalls w1 ++ [h e].
Proof.
  intros Hh Hself.
  assert (snd (useRunner interruptedException typeError opts span self w)
          = w1 ++ [ToastError (h e); LogError (Fail e); SpanEnd span]) as ->.
  { pose proof (onTypedError_handler typeError (toastifyErrorsOf opts)
                  e h w1 Hh) as Hcallback.
    rewrite (useRunner_typed_failure interruptedException typeError
               opts span self w w1 e); [|by rewrite Hcallback | done].
    rewrite Hcallback. unfold emit. simpl. by rewrite <- app_assoc. }
  split; [reflexivity|].
  unfold notifyFailureCalls. by rewrite omap_app.
Qed.

(** C7.  When the computation succeeds with [v], the promise resolves with
    [v]; with [toastifySuccess] supplied the runner adds one success
    notification, [toast.success (toastifySuccess v)], and without it none:
    the only other event is the end of the span. *)
Theorem success_notification opts span self w w1 v :
  self (emit (SpanStart span) w) = (Success v, w1) →
  fst (useRunner interruptedException typeError opts span self w)
  = Fulfilled v
  ∧ snd (useRunner interruptedException typeError opts span self w)
    = w1 ++ match toastifySuccess opts with
            | Some f => [ToastSuccess (f v); SpanEnd span]
            | None => [SpanEnd span]
            end
  ∧ notifySuccessCalls
      (snd (useRunner interruptedException typeError opts span self w))
    = notifySuccessCalls w1 ++ match toastifySuccess opts with
                               | Some f => [f v]
                               | None => []
                               end.
Proof.
  intros Hself. rewrite (useRunner_success _ _ _ _ _ _ _ _ Hself).
  split; [reflexivity|].
  unfold onResult, notifySuccessCalls.
  destruct (toastifySuccess opts) as [f|]; simpl; unfold emit;
    rewrite <- ?app_assoc, !omap_app; done.
Qed.

End Notifications.

(** ** Defects and the error log *)

Section DefectsAndLog.

Variable interruptedException : Cause EffectfulError -> JsValue.
Variable typeError : JsValue -> JsValue.
Context {A : Type}.
Implicit Types (opts : UseRunnerOpts A) (self : Effect A) (w : World).
Implicit Types (c : Cause EffectfulError) (e : EffectfulError).
Implicit Types (config : ToastifyErrorsConfig).

Lemma loggedCauses_toasts (messages : list string) :
  loggedCauses (ToastError <$> messages) = [].
Proof. induction messages as [|m ms IH]; [reflexivity | exact IH]. Qed.


(** One call of [toast.error] at most leaves the error log as it is. *)
Lemma loggedCauses_typed (typed : list Event) :
  typed = [] ∨ (∃ m, typed = [ToastError m])
  ∨ (∃ v, typed = [ToastErrorValue v]) →
  loggedCauses typed = [].
Proof. by intros [-> | [[m ->] | [v ->]]]. Qed.

(** C5, as the code has it.  For a failure that is not a single typed
    failure the promise rejects with a [QueryDefect], and after the log
    entry and the end of the span the runner notifies as [toastifyDefects]
    says: nothing for [false], the literal for a string, the fixed defect
    message for [true] (also the default).  Before the log entry there is
    at most one more call of [toast.error], and none when the cause holds
    no typed failure.  The cause that is logged and squashed into the
    [QueryDefect] is the cause of the run, unless a member inherited from
    [Object.prototype] is found under the tag of its first typed
    failure. *)
Theorem defect_notification_policy opts span self w w1 c :
  Cause.isFailType c = false →
  self (emit (SpanStart span) w) = (Failure c, w1) →
  ∃ (typed : list Event) (logged : Cause EffectfulError),
    useRunner interruptedException typeError opts span self w
    = (Rejected
         (RejectDefect
            {| cause :=
                 Cause.squash asUnknown interruptedException logged |}),
       w1 ++ typed ++ [LogError logged; SpanEnd span]
          ++ match toastifyDefectsOf opts with
             | IsBool false => []
             | IsString literal => [ToastError literal]
             | IsBool true => [ToastError DEFAULT_DEFECT_MESSAGE]
             end)
    ∧ (typed = [] ∨ (∃ m, typed = [ToastError m])
       ∨ (∃ v, typed = [ToastErrorValue v]))
    ∧ (Cause.failureOption c = None → typed = [])
    ∧ ((∀ e member,
          Cause.failureOption c = Some e →
          lookupTagHandler (toastifyErrorsOf opts) (_tag e)
          ≠ Some (Inherited member)) →
       logged = c).
Proof.
  intros Hc Hself.
  destruct (afterTapError_spec typeError opts c w1)
    as (typed & Htrace & Hshape & Hnone & _).
  exists typed, (fst (afterTapError typeError opts c w1)).
  pose proof (afterTapError_not_Fail typeError opts c w1 Hc) as Hlogged.
  split; [|split; [done|]; split; [done|]; by apply afterTapError_cause].
  rewrite (surjective_pairing (useRunner _ _ _ _ _ _)).
  rewrite (useRunner_failure _ _ _ _ _ _ _ _ Hself).
  rewrite onFailure_defect, onFailure_defect_trace by done.
  rewrite Htrace. unfold emit. by rewrite <- !app_assoc.
Qed.

(** C6, as the code has it.  A failed run writes exactly one entry to the
    error log, whatever the options are: after the one call of
    [toast.error] that a typed failure found in the cause can bring, inside
    the span, and before the notification of a defect, which is all that
    follows the end of the span (and so before the promise settles).  The
    entry is the cause of the run, unless a member inherited from
    [Object.prototype] is found under the tag of its first typed failure.
    A successful run adds nothing to the error log. *)
Theorem failure_cause_logged opts span self w w1 exit :
  self (emit (SpanStart span) w) = (exit, w1) →
  match exit with
  | Failure c =>
      ∃ (typed : list Event) (logged : Cause EffectfulError),
        snd (useRunner interruptedException typeError opts span self w)
        = w1 ++ typed ++ [LogError logged; SpanEnd span]
             ++ (if Cause.isFailType logged then []
                 else match toastifyDefectsOf opts with
                      | IsBool false => []
                      | IsString literal => [ToastError literal]
                      | IsBool true => [ToastError DEFAULT_DEFECT_MESSAGE]
                      end)
        ∧ (typed = [] ∨ (∃ m, typed = [ToastError m])
           ∨ (∃ v, typed = [ToastErrorValue v]))
        ∧ (Cause.failureOption c = None → typed = [])
        ∧ ((∀ e member,
              Cause.failureOption c = Some e →
              lookupTagHandler (toastifyErrorsOf opts) (_tag e)
              ≠ Some (Inherited member)) →
           logged = c)
        ∧ loggedCauses
            (snd (useRunner interruptedException typeError opts span self w))
          = loggedCauses w1 ++ [logged]
  | Success v =>
      loggedCauses
        (snd (useRunner interruptedException typeError opts span self w))
      = loggedCauses w1
  end.
Proof.
  intros Hself. destruct exit as [v|c].
  - rewrite (useRunner_success _ _ _ _ _ _ _ _ Hself). simpl.
    unfold onResult, loggedCauses.
    destruct (toastifySuccess opts); simpl; unfold emit;
      rewrite !omap_app; simpl; by rewrite ?app_nil_r.
  - destruct (afterTapError_spec typeError opts c w1)
      as (typed & Htrace & Hshape & Hnone & _).
    exists typed, (fst (afterTapError typeError opts c w1)).
    set (logged := fst (afterTapError typeError opts c w1)) in *.
    assert (snd (useRunner interruptedException typeError opts span self w)
            = w1 ++ typed ++ [LogError logged; SpanEnd span]
                 ++ (if Cause.isFailType logged then []
                     else match toastifyDefectsOf opts with
                          | IsBool false => []
                          | IsString literal => [ToastError literal]
                          | IsBool true =>
                              [ToastError DEFAULT_DEFECT_MESSAGE]
                          end)) as Hrun.
    { rewrite (useRunner_failure _ _ _ _ _ _ _ _ Hself). fold logged.
      rewrite Htrace. destruct (Cause.isFailType logged) eqn:Hlogged.
      - apply isFailType_true in Hlogged as [e ->]. simpl.
        unfold emit. by rewrite <- !app_assoc.
      - rewrite onFailure_defect_trace by done.
        unfold emit. by rewrite <- !app_assoc. }
    split; [exact Hrun|]. split; [done|]. split; [done|].
    split; [by apply afterTapError_cause|].
    rewrite Hrun. pose proof (loggedCauses_typed typed Hshape) as Htyped.
    unfold loggedCauses in *. rewrite !omap_app, Htyped. simpl.
    destruct (Cause.isFailType logged); [done|].
    by destruct (toastifyDefectsOf opts) as [[]|literal].
Qed.

End DefectsAndLog.

(** ** The skip token *)

Section SkipToken.

Variable interruptedException : Cause EffectfulError -> JsValue.
Variable typeError : JsValue -> JsValue.
Variables (QueryFunctionContext PageParam : Type).
Variables (GetNextPageParamFunction GetPreviousPageParamFunction : Type).
Variables (DurationInput Millis PassThrough : Type).
Variable toMillis : DurationInput -> Millis.
Context {A : Type}.

Implicit Types
  (options : @QueryOptions PassThrough A
               (@EffectfulQueryFunction QueryFunctionContext A)
               DurationInput)
  (pages : @InfiniteQueryOptions PageParam GetNextPageParamFunction
             GetPreviousPageParamFunction PassThrough A
             (@EffectfulQueryFunction QueryFunctionContext A)
             DurationInput).

(** With a function in [queryFn], what the library fetches with is that
    function piped through the runner, under the first element of the key as
    span name. *)
Lemma useEffectQuery_wraps_queryFn options
    (f : @EffectfulQueryFunction QueryFunctionContext A) context :
  queryFn options = QueryFn f →
  fetchWith
    (queryFn
       (useEffectQuery_options interruptedException typeError toMillis
          options))
    context
  = Some (useRunner interruptedException typeError (runnerOpts options)
            (fst (queryKey options)) (f context)).
Proof. intros Hf. simpl. rewrite Hf. reflexivity. Qed.

(** C9.  Given [skipToken] as [queryFn], [useEffectQuery] hands [skipToken]
    itself to [useQuery]; the library then holds no query function, so a
    fetch builds and runs no effect and leaves the world, and with it the
    notification port, untouched. *)
Theorem useEffectQuery_skipToken options :
  queryFn options = skipToken →
  let forwarded :=
    queryFn
      (useEffectQuery_options interruptedException typeError toMillis
         options) in
  forwarded = skipToken
  ∧ (∀ context, fetchWith forwarded context = None)
  ∧ (∀ context w, worldAfterFetch forwarded context w = w).
Proof.
  intros Hskip. unfold worldAfterFetch. simpl. rewrite Hskip. done.
Qed.

(** C10.  [useEffectInfiniteQuery] treats [queryFn] as [useEffectQuery]
    does: the [queryFn] it hands to [useInfiniteQuery] is the one
    [useEffectQuery] would hand to [useQuery], and under [skipToken] it is
    [skipToken] itself, so that no page effect is built or run. *)
Theorem useEffectInfiniteQuery_skipToken pages :
  queryFn (query pages) = skipToken →
  let forwarded :=
    queryFn
      (query (useEffectInfiniteQuery_options interruptedException typeError
                toMillis pages)) in
  forwarded = skipToken
  ∧ forwarded
    = queryFn
        (useEffectQuery_options interruptedException typeError toMillis
           (query pages))
  ∧ (∀ context, fetchWith forwarded context = None)
  ∧ (∀ context w, worldAfterFetch forwarded context w = w).
Proof.
  intros Hskip. unfold worldAfterFetch. simpl. rewrite Hskip. done.
Qed.

End SkipToken.

(** ** The runner on concrete runs *)

(** C3.  Default options, a computation failing with [{ _tag: "X" }], which
    has no [message]: the runner calls [toast.error "extractMessage"]. *)
Theorem extractMessage_sentinel_notified :
  hasStringMessage (asUnknown errorBare) = false
  ∧ useRunner sampleInterruptedException sampleTypeError (@defaultOpts Z)
      "todos" (Effect.fail errorBare) []
    = (Rejected (RejectTyped errorBare),
       [SpanStart "todos"; ToastError "extractMessage";
        LogError (Fail errorBare); SpanEnd "todos"])
  ∧ notifyFailureCalls
      (snd (useRunner sampleInterruptedException sampleTypeError
              (@defaultOpts Z) "todos" (Effect.fail errorBare) []))
    = ["extractMessage"].
Proof. repeat split; vm_compute; reflexivity. Qed.

(** C1.  Default options, a computation failing with the typed failure
    [{ _tag: "__proto__" }]: the lookup of its tag in [tagConfigs] finds
    [Object.prototype], the call of that value throws inside [Effect.sync],
    and the promise rejects with a [QueryDefect] around the [TypeError],
    not with the typed failure. *)
Theorem inherited_tag_breaks_passthrough :
  lookupTagHandler (toastifyErrorsOf (@defaultOpts Z)) (_tag errorProto)
  = Some (Inherited ObjectPrototype)
  ∧ useRunner sampleInterruptedException sampleTypeError (@defaultOpts Z)
      "todos" (Effect.fail errorProto) []
    = (Rejected
         (RejectDefect {| cause := sampleTypeError ObjectPrototype |}),
       [SpanStart "todos";
        LogError (Die (sampleTypeError ObjectPrototype));
        SpanEnd "todos"; ToastError "An unexpected error occurred"]).
Proof. split; vm_compute; reflexivity. Qed.

(** C2.  Default options, a computation failing with the typed failure
    [{ _tag: "__proto__" }] followed by a defect: the cause is not a single
    typed failure, its squashed form is the typed failure, and yet the
    [QueryDefect] that rejects the promise wraps the [TypeError] thrown by
    the call of the inherited value, which has replaced the cause. *)
Theorem inherited_tag_replaces_cause :
  Cause.isFailType causeProtoComposite = false
  ∧ Cause.squash asUnknown sampleInterruptedException causeProtoComposite
    = asUnknown errorProto
  ∧ useRunner sampleInterruptedException sampleTypeError (@defaultOpts Z)
      "todos" (Effect.failCause causeProtoComposite) []
    = (Rejected
         (RejectDefect {| cause := sampleTypeError ObjectPrototype |}),
       [SpanStart "todos";
        LogError (Die (sampleTypeError ObjectPrototype));
        SpanEnd "todos"; ToastError "An unexpected error occurred"]).
Proof. repeat split; vm_compute; reflexivity. Qed.

(** With [toastifyDefects: false] and a cause that holds a typed failure
    and then a defect, the run is a defect for the runner and yet
    [toast.error] is called, for the typed failure. *)
Lemma silenced_defect_still_notifies :
  Cause.isFailType causeComposite = false
  ∧ fst (useRunner sampleInterruptedException sampleTypeError
           (@optsSilentDefects Z) "todos" (Effect.failCause causeComposite)
           [])
    = Rejected (RejectDefect {| cause := asUnknown errorBoom |})
  ∧ notifyFailureCalls
      (snd (useRunner sampleInterruptedException sampleTypeError
              (@optsSilentDefects Z) "todos"
              (Effect.failCause causeComposite) []))
    = ["boom"].
Proof. repeat split; vm_compute; reflexivity. Qed.

(** A successful run writes nothing to the error log, and in a run that
    fails with a typed failure the notification comes before the log
    entry. *)
Lemma success_not_logged_and_toast_before_log :
  loggedCauses
    (snd (useRunner sampleInterruptedException sampleTypeError
            (@defaultOpts Z) "todos" (Effect.succeed 5%Z) []))
  = []
  ∧ snd (useRunner sampleInterruptedException sampleTypeError
           (@defaultOpts Z) "todos" (Effect.fail errorBoom) [])
    = [SpanStart "todos"; ToastError "boom"; LogError (Fail errorBoom);
       SpanEnd "todos"].
Proof. split; vm_compute; reflexivity. Qed.

(** ** Instances on concrete runs *)

Lemma non_single_failure_is_defect_witness :
  (∀ e, causeComposite ≠ Fail e)
  ∧ Effect.failCause causeComposite (emit (SpanStart "todos") [])
    = (@Failure Z _ causeComposite, [SpanStart "todos"])
  ∧ (∃ q, fst (useRunner sampleInterruptedException sampleTypeError
                 (@defaultOpts Z) "todos"
                 (Effect.failCause causeComposite) [])
          = Rejected (RejectDefect q))
  ∧ (∀ e, fst (useRunner sampleInterruptedException sampleTypeError
                 (@defaultOpts Z) "todos"
                 (Effect.failCause causeComposite) [])
          ≠ Rejected (RejectTyped e)).
Proof.
  assert (∀ e, causeComposite ≠ Fail e) as Hc by (intros e; discriminate).
  split; [exact Hc|]. split; [reflexivity|].
  exact (non_single_failure_is_defect sampleInterruptedException
           sampleTypeError (@defaultOpts Z) "todos"
           (Effect.failCause causeComposite) []
           [SpanStart "todos"] causeComposite Hc eq_refl).
Defined.

Lemma tag_handler_precedence_witness :
  tagConfigs (toastifyErrorsOf (@optsNotFound Z)) !! _tag errorNotFound
  = Some (fun _ => "Item missing")
  ∧ Effect.fail errorNotFound (emit (SpanStart "todos") [])
    = (@Failure Z _ (Fail errorNotFound), [SpanStart "todos"])
  ∧ snd (useRunner sampleInterruptedException sampleTypeError
           (@optsNotFound Z) "todos" (Effect.fail errorNotFound) [])
    = [SpanStart "todos"; ToastError "Item missing";
       LogError (Fail errorNotFound); SpanEnd "todos"]
  ∧ notifyFailureCalls
      (snd (useRunner sampleInterruptedException sampleTypeError
              (@optsNotFound Z) "todos" (Effect.fail errorNotFound) []))
    = ["Item missing"].
Proof.
  split; [reflexivity|]. split; [reflexivity|].
  exact (tag_handler_precedence sampleInterruptedException sampleTypeError
           (@optsNotFound Z) "todos" (Effect.fail errorNotFound) []
           [SpanStart "todos"] errorNotFound (fun _ => "Item missing")
           eq_refl eq_refl).
Defined.

Lemma success_notification_witness :
  Effect.succeed 5%Z (emit (SpanStart "todos") [])
  = (Success 5%Z, [SpanStart "todos"])
  ∧ fst (useRunner sampleInterruptedException sampleTypeError optsOk
           "todos" (Effect.succeed 5%Z) [])
    = Fulfilled 5%Z
  ∧ snd (useRunner sampleInterruptedException sampleTypeError optsOk
           "todos" (Effect.succeed 5%Z) [])
    = [SpanStart "todos"; ToastSuccess "ok:5"; SpanEnd "todos"]
  ∧ notifySuccessCalls
      (snd (useRunner sampleInterruptedException sampleTypeError optsOk
              "todos" (Effect.succeed 5%Z) []))
    = ["ok:5"].
Proof.
  split; [reflexivity|].
  exact (success_notification sampleInterruptedException sampleTypeError
           optsOk "todos" (Effect.succeed 5%Z) [] [SpanStart "todos"] 5%Z
           eq_refl).
Defined.

Lemma defect_notification_policy_witness :
  Cause.isFailType (@Die EffectfulError (JsString "crash")) = false
  ∧ Effect.die (JsString "crash") (emit (SpanStart "todos") [])
    = (@Failure Z _ (Die (JsString "crash")), [SpanStart "todos"])
  ∧ useRunner sampleInterruptedException sampleTypeError
      (@optsSilentDefects Z) "todos" (Effect.die (JsString "crash")) []
    = (Rejected (RejectDefect {| cause := JsString "crash" |}),
       [SpanStart "todos"; LogError (Die (JsString "crash"));
        SpanEnd "todos"]).
Proof.
  split; [reflexivity|]. split; [reflexivity|].
  destruct (defect_notification_policy sampleInterruptedException
              sampleTypeError (@optsSilentDefects Z) "todos"
              (Effect.die (JsString "crash")) [] [SpanStart "todos"]
              (Die (JsString "crash")) eq_refl eq_refl)
    as (typed & logged & Hrun & _ & Htyped & Hlogged).
  rewrite (Htyped eq_refl) in Hrun.
  rewrite (Hlogged ltac:(intros e member; discriminate)) in Hrun.
  exact Hrun.
Defined.

Lemma failure_cause_logged_witness :
  Effect.failCause causeComposite (emit (SpanStart "todos") [])
  = (@Failure Z _ causeComposite, [SpanStart "todos"])
  ∧ loggedCauses
      (snd (useRunner sampleInterruptedException sampleTypeError
              (@optsSilentDefects Z) "todos"
              (Effect.failCause causeComposite) []))
    = [causeComposite].
Proof.
  split; [reflexivity|].
  destruct (failure_cause_logged sampleInterruptedException sampleTypeError
              (@optsSilentDefects Z) "todos"
              (Effect.failCause causeComposite) [] [SpanStart "todos"]
              (Failure causeComposite) eq_refl)
    as (typed & logged & _ & _ & _ & Hlogged & Hlog).
  rewrite Hlog. rewrite Hlogged; [reflexivity|].
  intros e member [= <-]. vm_compute. discriminate.
Defined.

Lemma useEffectQuery_skipToken_witness :
  queryFn skippedQuery = skipToken
  ∧ queryFn (useEffectQuery_options sampleInterruptedException
               sampleTypeError (fun d => (1000 * d)%Z) skippedQuery)
    = skipToken.
Proof.
  split; [reflexivity|].
  exact (proj1 (useEffectQuery_skipToken sampleInterruptedException
                  sampleTypeError unit Z Z unit (fun d => (1000 * d)%Z)
                  skippedQuery eq_refl)).
Defined.

Lemma useEffectInfiniteQuery_skipToken_witness :
  queryFn (query skippedInfiniteQuery) = skipToken
  ∧ queryFn
      (query (useEffectInfiniteQuery_options sampleInterruptedException
                sampleTypeError (fun d => (1000 * d)%Z)
                skippedInfiniteQuery))
    = skipToken.
Proof.
  split; [reflexivity|].
  exact (proj1 (useEffectInfiniteQuery_skipToken sampleInterruptedException
                  sampleTypeError unit Z unit unit Z Z unit
                  (fun d => (1000 * d)%Z) skippedInfiniteQuery eq_refl)).
Defined.

(** ** The fallback policy for typed failures *)

Section Fallback.

Variable interruptedException : Cause EffectfulError -> JsValue.
Variable typeError : JsValue -> JsValue.
Context {A : Type}.
Implicit Types (opts : UseRunnerOpts A) (self : Effect A) (w : World).
Implicit Types (c : Cause EffectfulError) (e : EffectfulError).
Implicit Types (config : ToastifyErrorsConfig).

(** The callback when the lookup of the tag yields [undefined]. *)
Lemma onTypedError_fallback config e w :
  lookupTagHandler config (_tag e) = None →
  onTypedError typeError config e w
  = if notFalse (orElseOf config) then
      if strictEqString (orElseOf config) "extractMessage"
         && hasStringMessage (asUnknown e)
      then
        match getProperty "message" (asUnknown e) with
        | JsString message => toast.error message w
        | _ => (Normal tt, w)
        end
      else
        match orElseOf config with
        | IsString literal => toast.error literal w
        | IsBool _ => toast.error DEFAULT_ERROR_MESSAGE w
        end
    else (Normal tt, w).
Proof.
  intros Hh. unfold onTypedError. rewrite Hh.
  destruct (notFalse (orElseOf config)); [|reflexivity].
  destruct (_ && _).
  - by destruct (getProperty "message" (asUnknown e)).
  - by destruct (orElseOf config).
Qed.

(** X1.  With [orElse: false], when the lookup of the failure's tag in
    [tagConfigs] yields [undefined] (no configured handler and no member of
    [Object.prototype] by that name), the runner calls the notification
    port not at all: it only logs the cause, closes the span and rejects
    with the failure. *)
Theorem fallback_suppressed opts span self w w1 e :
  orElse (toastifyErrorsOf opts) = Some (IsBool false) →
  lookupTagHandler (toastifyErrorsOf opts) (_tag e) = None →
  self (emit (SpanStart span) w) = (Failure (Fail e), w1) →
  useRunner interruptedException typeError opts span self w
  = (Rejected (RejectTyped e), w1 ++ [LogError (Fail e); SpanEnd span]).
Proof.
  intros Ho Hh Hself.
  pose proof (onTypedError_fallback (toastifyErrorsOf opts) e w1 Hh)
    as Hcallback.
  unfold orElseOf in Hcallback. rewrite Ho in Hcallback. simpl in Hcallback.
  rewrite (useRunner_typed_failure interruptedException typeError
             opts span self w w1 e); [|by rewrite Hcallback | done].
  by rewrite Hcallback.
Qed.

(** X2.  With a string other than "extractMessage" as [orElse], when the
    lookup of the failure's tag yields [undefined], the runner notifies
    that string once, as it is, whether or not the failure carries a
    message of its own. *)
Theorem fallback_literal opts span self w w1 e literal :
  orElse (toastifyErrorsOf opts) = Some (IsString literal) →
  literal ≠ "extractMessage" →
  lookupTagHandler (toastifyErrorsOf opts) (_tag e) = None →
  self (emit (SpanStart span) w) = (Failure (Fail e), w1) →
  useRunner interruptedException typeError opts span self w
  = (Rejected (RejectTyped e),
     w1 ++ [ToastError literal; LogError (Fail e); SpanEnd span]).
Proof.
  intros Ho Hne Hh Hself.
  pose proof (onTypedError_fallback (toastifyErrorsOf opts) e w1 Hh)
    as Hcallback.
  unfold orElseOf in Hcallback. rewrite Ho in Hcallback. simpl in Hcallback.
  rewrite bool_decide_eq_false_2 in Hcallback by done.
  simpl in Hcallback.
  rewrite (useRunner_typed_failure interruptedException typeError
             opts span self w w1 e); [|by rewrite Hcallback | done].
  rewrite Hcallback. unfold toast.error, emit. simpl.
  by rewrite <- ?app_assoc.
Qed.

(** X3.  With [orElse: true], when the lookup of the failure's tag yields
    [undefined], the runner notifies the fixed text "Something went wrong"
    once; a message on the failure is not looked at. *)
Theorem fallback_default_message opts span self w w1 e :
  orElse (toastifyErrorsOf opts) = Some (IsBool true) →
  lookupTagHandler (toastifyErrorsOf opts) (_tag e) = None →
  self (emit (SpanStart span) w) = (Failure (Fail e), w1) →
  useRunner interruptedException typeError opts span self w
  = (Rejected (RejectTyped e),
     w1 ++ [ToastError DEFAULT_ERROR_MESSAGE; LogError (Fail e);
            SpanEnd span]).
Proof.
  intros Ho Hh Hself.
  pose proof (onTypedError_fallback (toastifyErrorsOf opts) e w1 Hh)
    as Hcallback.
  unfold orElseOf in Hcallback. rewrite Ho in Hcallback. simpl in Hcallback.
  rewrite (useRunner_typed_failure interruptedException typeError
             opts span self w w1 e); [|by rewrite Hcallback | done].
  rewrite Hcallback. unfold toast.error, emit. simpl.
  by rewrite <- ?app_assoc.
Qed.

(** X4.  Under "extractMessage", given or by default, when the lookup of
    the failure's tag yields [undefined], a failure whose [message]
    property, own or inherited, reads as a string is notified once, with
    that string, and the promise rejects with the failure. *)
Theorem fallback_extracts_message opts span self w w1 e m :
  orElseOf (toastifyErrorsOf opts) = IsString "extractMessage" →
  lookupTagHandler (toastifyErrorsOf opts) (_tag e) = None →
  getProperty "message" (asUnknown e) = JsString m →
  self (emit (SpanStart span) w) = (Failure (Fail e), w1) →
  useRunner interruptedException typeError opts span self w
  = (Rejected (RejectTyped e),
     w1 ++ [ToastError m; LogError (Fail e); SpanEnd span]).
Proof.
  intros Ho Hh Hm Hself.
  pose proof (onTypedError_extractMessage typeError (toastifyErrorsOf opts)
                e m w1 Hh Ho Hm) as Hcallback.
  rewrite (useRunner_typed_failure interruptedException typeError
             opts span self w w1 e); [|by rewrite Hcallback | done].
  rewrite Hcallback. unfold toast.error, emit. simpl.
  by rewrite <- ?app_assoc.
Qed.

(** X5.  An error object passes [hasStringMessage] exactly when reading its
    [message] property gives a string, be the property its own or one of
    its prototype chain: an object without a message of its own passes
    when its prototype chain holds one, as an instance of an [Error] class
    does with the empty message of [Error.prototype]. *)
Theorem hasStringMessage_error e :
  (hasStringMessage (asUnknown e) = true
   ↔ ∃ m, getProperty "message" (asUnknown e) = JsString m)
  ∧ (∀ m,
       fields e !! "message" = None →
       getProperty "message" (prototype e) = JsString m →
       hasStringMessage (asUnknown e) = true
       ∧ getProperty "message" (asUnknown e) = JsString m).
Proof.
  assert (hasStringMessage (asUnknown e) = true
          ↔ ∃ m, getProperty "message" (asUnknown e) = JsString m) as Hiff.
  { rewrite hasStringMessage_true. unfold asUnknown. split.
    - by intros [_ Hm].
    - intros Hm. split; [eauto | done]. }
  split; [exact Hiff|].
  intros m Hown Hproto.
  assert (getProperty "message" (asUnknown e) = JsString m) as Hread.
  { unfold asUnknown. simpl. rewrite lookup_insert_ne by done.
    by rewrite Hown. }
  split; [apply Hiff; eauto | exact Hread].
Qed.

End Fallback.

(** ** What a run can and cannot notify *)

Section OptionsScope.

Variable interruptedException : Cause EffectfulError -> JsValue.
Variable typeError : JsValue -> JsValue.
Context {A : Type}.
Implicit Types (opts : UseRunnerOpts A) (self : Effect A) (w : World).
Implicit Types (c : Cause EffectfulError) (e : EffectfulError).
Implicit Types (config : ToastifyErrorsConfig).



(** X9.  A cause that holds a typed failure without being a single [Fail]
    node goes through both notification policies: first that of typed
    failures, applied to the first typed failure [e] of the cause, then,
    after the log entry and the end of the span, that of [toastifyDefects];
    and when the callback for [e] returns, the [QueryDefect] that rejects
    the promise wraps [e]. *)
Theorem composite_cause_runs_both_policies opts span self w w1 w2 c e :
  Cause.failureOption c = Some e →
  Cause.isFailType c = false →
  onTypedError typeError (toastifyErrorsOf opts) e w1 = (Normal tt, w2) →
  self (emit (SpanStart span) w) = (Failure c, w1) →
  useRunner interruptedException typeError opts span self w
  = (Rejected (RejectDefect {| cause := asUnknown e |}),
     w2 ++ [LogError c; SpanEnd span]
        ++ match toastifyDefectsOf opts with
           | IsBool false => []
           | IsString literal => [ToastError literal]
           | IsBool true => [ToastError DEFAULT_DEFECT_MESSAGE]
           end).
Proof.
  intros He Hc Hcallback Hself.
  rewrite (surjective_pairing (useRunner _ _ _ _ _ _)).
  rewrite (useRunner_failure _ _ _ _ _ _ _ _ Hself).
  rewrite (afterTapError_returns _ _ _ e) by by rewrite ?Hcallback.
  rewrite Hcallback. simpl.
  rewrite onFailure_defect, onFailure_defect_trace by done.
  unfold Cause.squash, emit. rewrite He.
  by rewrite <- !app_assoc.
Qed.

End OptionsScope.

(** ** The adapters, end to end *)

Section Adapters.

Variable interruptedException : Cause EffectfulError -> JsValue.
Variable typeError : JsValue -> JsValue.
Variables (QueryFunctionContext PageParam TVariables : Type).
Variables (GetNextPageParamFunction GetPreviousPageParamFunction : Type).
Variables (DurationInput Millis PassThrough : Type).
Variable toMillis : DurationInput -> Millis.
Context {A : Type}.

Implicit Types
  (options : @QueryOptions PassThrough A
               (@EffectfulQueryFunction QueryFunctionContext A)
               DurationInput)
  (pages : @InfiniteQueryOptions PageParam GetNextPageParamFunction
             GetPreviousPageParamFunction PassThrough A
             (@EffectfulQueryFunction QueryFunctionContext A)
             DurationInput)
  (mutation : @Mutation.MutationOptions PassThrough A
                (TVariables -> Effect A))
  (f : @EffectfulQueryFunction QueryFunctionContext A)
  (opts : UseRunnerOpts A) (self : Effect A) (w : World).





End Adapters.

(** ** Further instances on concrete runs *)

Lemma fallback_suppressed_witness :
  orElse (toastifyErrorsOf (@optsOrElse Z (IsBool false)))
  = Some (IsBool false)
  ∧ lookupTagHandler (toastifyErrorsOf (@optsOrElse Z (IsBool false)))
      (_tag errorBoom)
    = None
  ∧ Effect.fail errorBoom (emit (SpanStart "todos") [])
    = (@Failure Z _ (Fail errorBoom), [SpanStart "todos"])
  ∧ useRunner sampleInterruptedException sampleTypeError
      (@optsOrElse Z (IsBool false)) "todos" (Effect.fail errorBoom) []
    = (Rejected (RejectTyped errorBoom),
       [SpanStart "todos"; LogError (Fail errorBoom); SpanEnd "todos"]).
Proof.
  split; [reflexivity|]. split; [reflexivity|]. split; [reflexivity|].
  exact (fallback_suppressed sampleInterruptedException sampleTypeError
           (@optsOrElse Z (IsBool false)) "todos" (Effect.fail errorBoom) []
           [SpanStart "todos"] errorBoom eq_refl eq_refl eq_refl).
Defined.

Lemma fallback_literal_witness :
  orElse (toastifyErrorsOf (@optsOrElse Z (IsString "Request failed")))
  = Some (IsString "Request failed")
  ∧ "Request failed" ≠ "extractMessage"
  ∧ lookupTagHandler
      (toastifyErrorsOf (@optsOrElse Z (IsString "Request failed")))
      (_tag errorBoom)
    = None
  ∧ Effect.fail errorBoom (emit (SpanStart "todos") [])
    = (@Failure Z _ (Fail errorBoom), [SpanStart "todos"])
  ∧ useRunner sampleInterruptedException sampleTypeError
      (@optsOrElse Z (IsString "Request failed")) "todos"
      (Effect.fail errorBoom) []
    = (Rejected (RejectTyped errorBoom),
       [SpanStart "todos"; ToastError "Request failed";
        LogError (Fail errorBoom); SpanEnd "todos"]).
Proof.
  assert ("Request failed" ≠ "extractMessage") as Hne by discriminate.
  split; [reflexivity|]. split; [exact Hne|]. split; [reflexivity|].
  split; [reflexivity|].
  exact (fallback_literal sampleInterruptedException sampleTypeError
           (@optsOrElse Z (IsString "Request failed")) "todos"
           (Effect.fail errorBoom) [] [SpanStart "todos"] errorBoom
           "Request failed" eq_refl Hne eq_refl eq_refl).
Defined.

Lemma fallback_default_message_witness :
  orElse (toastifyErrorsOf (@optsOrElse Z (IsBool true)))
  = Some (IsBool true)
  ∧ lookupTagHandler (toastifyErrorsOf (@optsOrElse Z (IsBool true)))
      (_tag errorBoom)
    = None
  ∧ Effect.fail errorBoom (emit (SpanStart "todos") [])
    = (@Failure Z _ (Fail errorBoom), [SpanStart "todos"])
  ∧ useRunner sampleInterruptedException sampleTypeError
      (@optsOrElse Z (IsBool true)) "todos" (Effect.fail errorBoom) []
    = (Rejected (RejectTyped errorBoom),
       [SpanStart "todos"; ToastError "Something went wrong";
        LogError (Fail errorBoom); SpanEnd "todos"]).
Proof.
  split; [reflexivity|]. split; [reflexivity|]. split; [reflexivity|].
  exact (fallback_default_message sampleInterruptedException sampleTypeError
           (@optsOrElse Z (IsBool true)) "todos" (Effect.fail errorBoom) []
           [SpanStart "todos"] errorBoom eq_refl eq_refl eq_refl).
Defined.

Lemma fallback_extracts_message_witness :
  orElseOf (toastifyErrorsOf (@defaultOpts Z)) = IsString "extractMessage"
  ∧ lookupTagHandler (toastifyErrorsOf (@defaultOpts Z)) (_tag errorMissing)
    = None
  ∧ getProperty "message" (asUnknown errorMissing) = JsString ""
  ∧ Effect.fail errorMissing (emit (SpanStart "todos") [])
    = (@Failure Z _ (Fail errorMissing), [SpanStart "todos"])
  ∧ useRunner sampleInterruptedException sampleTypeError (@defaultOpts Z)
      "todos" (Effect.fail errorMissing) []
    = (Rejected (RejectTyped errorMissing),
       [SpanStart "todos"; ToastError ""; LogError (Fail errorMissing);
        SpanEnd "todos"]).
Proof.
  split; [reflexivity|]. split; [reflexivity|]. split; [reflexivity|].
  split; [reflexivity|].
  exact (fallback_extracts_message sampleInterruptedException
           sampleTypeError (@defaultOpts Z) "todos"
           (Effect.fail errorMissing) [] [SpanStart "todos"] errorMissing ""
           eq_refl eq_refl eq_refl eq_refl).
Defined.

Lemma hasStringMessage_error_witness :
  fields errorMissing !! "message" = None
  ∧ getProperty "message" (prototype errorMissing) = JsString ""
  ∧ hasStringMessage (asUnknown errorMissing) = true
  ∧ getProperty "message" (asUnknown errorMissing) = JsString "".
Proof.
  split; [reflexivity|]. split; [reflexivity|].
  exact (proj2 (hasStringMessage_error errorMissing) "" eq_refl eq_refl).
Defined.



Lemma composite_cause_runs_both_policies_witness :
  Cause.failureOption causeComposite = Some errorBoom
  ∧ Cause.isFailType causeComposite = false
  ∧ onTypedError sampleTypeError (toastifyErrorsOf (@defaultOpts Z))
      errorBoom [SpanStart "todos"]
    = (Normal tt, [SpanStart "todos"; ToastError "boom"])
  ∧ Effect.failCause causeComposite (emit (SpanStart "todos") [])
    = (@Failure Z _ causeComposite, [SpanStart "todos"])
  ∧ useRunner sampleInterruptedException sampleTypeError (@defaultOpts Z)
      "todos" (Effect.failCause causeComposite) []
    = (Rejected (RejectDefect {| cause := asUnknown errorBoom |}),
       [SpanStart "todos"; ToastError "boom"; LogError causeComposite;
        SpanEnd "todos"; ToastError "An unexpected error occurred"]).
Proof.
  split; [reflexivity|]. split; [reflexivity|]. split; [reflexivity|].
  split; [reflexivity|].
  exact (composite_cause_runs_both_policies sampleInterruptedException
           sampleTypeError (@defaultOpts Z) "todos"
           (Effect.failCause causeComposite) [] [SpanStart "todos"]
           [SpanStart "todos"; ToastError "boom"] causeComposite errorBoom
           eq_refl eq_refl eq_refl eq_refl).
Defined.



